(** * Rectangle: a rectangle given by centre, circumradius and two angles

    Shallow embedding of [src/rectangle.py] (class [Rectangle]).

    Numbers.  The attributes are Python [float]s, that is IEEE 754 binary64
    numbers.  The methods are written once, over an interface [Number] of
    the operations the source applies to floats; the program is their
    instance [binary64] on Rocq's primitive floats, where every [+], [-] and
    [*] rounds to nearest-even, [pow], [math.sqrt], [math.cos] and [math.sin]
    raise as CPython's do, and [==] is the IEEE comparison.  The second
    instance, [real_number], replaces each operation by the exact one on the
    real numbers; it is the arithmetic the geometric invariants of the class
    documentation are true of, and is used where a property of the program
    holds in exact arithmetic only.

    [math.cos], [math.sin] and [pow] come from the C library; their values
    are parameters [libm_cos], [libm_sin] and [libm_pow_2] of [binary64],
    and the properties of the program are proved for all of them.  The
    examples run the program at [doubles], which is [binary64] over the C
    library's values at the arguments the examples reach.

    Objects.  An instance is a record with one field per attribute.  A
    method that reads [self] takes the record; a method that assigns
    attributes returns the updated record, one assignment after the other in
    the order of the source.  A method that can raise returns a [result]; a
    mutator that can raise returns an [outcome], which keeps the state the
    object is left in when the exception leaves the method.  [x_center] and
    [y_center] are kept as objects with an address, because [==] on the
    tuples of [get_center] looks at the identity of the items before their
    value.

    Not embedded: [pretty_point], [__str__] and [__repr__], which print
    floats as decimal text. *)

From Stdlib Require Import Floats ZArith NArith List Bool Lia Reals Lra.
Import ListNotations.

(** ** Exceptions *)

Inductive exception : Type :=
| OverflowError
| ValueError.

(** What a call that can raise gives back. *)
Inductive result (A : Type) : Type :=
| Ok (a : A)
| Raise (e : exception).

Arguments Ok {A} a.
Arguments Raise {A} e.

Definition bind {A B : Type} (r : result A) (k : A -> result B) : result B :=
  match r with
  | Ok a => k a
  | Raise e => Raise e
  end.

Notation "'let?' x ':=' r 'in' k" :=
  (bind r (fun x => k))
  (at level 10, x name, r at level 100, k at level 200).

(** ** The operations on floats the source uses *)

Class Number (F : Type) : Type := mkNumber {
  (** [a + b], [a - b], [a * b], [- a] *)
  add : F -> F -> F;
  sub : F -> F -> F;
  mul : F -> F -> F;
  neg : F -> F;
  (** the literals [2] and [0] as floats *)
  two : F;
  zero : F;
  (** [abs(a)] *)
  builtin_abs : F -> F;
  (** [pow(a, 2)] *)
  builtin_pow_2 : F -> result F;
  (** [math.sqrt(a)], [math.cos(a)], [math.sin(a)] *)
  math_sqrt : F -> result F;
  math_cos : F -> result F;
  math_sin : F -> result F;
  (** [a == b] and [a < b] on two floats *)
  float_eq : F -> F -> bool;
  float_lt : F -> F -> bool;
  (** whether two floats are the same value, bit for bit *)
  same_float : F -> F -> bool
}.

Declare Scope num_scope.
Delimit Scope num_scope with num.
Notation "a + b" := (add a b) : num_scope.
Notation "a - b" := (sub a b) : num_scope.
Notation "a * b" := (mul a b) : num_scope.
Notation "- a" := (neg a) : num_scope.
Notation "a == b" := (float_eq a b) (at level 70, no associativity) : num_scope.

(** The laws of the operations that the properties of the class rest on.
    Binary64 and the real numbers both satisfy them. *)
Class NumberLaws {F : Type} (num : Number F) : Prop := mkNumberLaws {
  abs_neg : forall a : F, builtin_abs (neg a) = builtin_abs a;
  abs_abs : forall a : F, builtin_abs (builtin_abs a) = builtin_abs a;
  abs_not_negative : forall a : F, float_lt (builtin_abs a) zero = false;
  float_eq_sym : forall a b : F, float_eq a b = float_eq b a;
  float_eq_trans : forall a b c : F,
    float_eq a b = true -> float_eq b c = true -> float_eq a c = true;
  same_float_spec : forall a b : F, same_float a b = true <-> a = b
}.

(** A float object: its value and the address that tells it from other
    objects.  Floats are immutable, so one address holds one value; [is_]
    takes two records with one address and two values for two objects. *)
Record object (F : Type) : Type := mkObject {
  value : F;
  address : N
}.

Arguments mkObject {F} value address.
Arguments value {F} o.
Arguments address {F} o.

Section Model.

Context {F : Type} {num : Number F}.

Local Open Scope num_scope.

(** [v is w] *)
Definition is_ (v w : object F) : bool :=
  N.eqb (address v) (address w) && same_float (value v) (value w).

(** ** The instance *)

(** [Tuple[float, float]] *)
Definition point : Type := (F * F)%type.

Record Rectangle : Type := mkRectangle {
  x_center : object F;
  y_center : object F;
  radius : F;
  alpha_angle : F;
  beta_angle : F;
  p1 : point;
  p2 : point;
  p3 : point;
  p4 : point;
  area : F
}.

(** Attribute assignment [self.<attr> = v]. *)
Definition set_x_center (self : Rectangle) (v : object F) : Rectangle :=
  mkRectangle v (y_center self) (radius self) (alpha_angle self)
    (beta_angle self) (p1 self) (p2 self) (p3 self) (p4 self) (area self).

Definition set_y_center (self : Rectangle) (v : object F) : Rectangle :=
  mkRectangle (x_center self) v (radius self) (alpha_angle self)
    (beta_angle self) (p1 self) (p2 self) (p3 self) (p4 self) (area self).

Definition set_radius (self : Rectangle) (v : F) : Rectangle :=
  mkRectangle (x_center self) (y_center self) v (alpha_angle self)
    (beta_angle self) (p1 self) (p2 self) (p3 self) (p4 self) (area self).

Definition set_alpha_angle (self : Rectangle) (v : F) : Rectangle :=
  mkRectangle (x_center self) (y_center self) (radius self) v
    (beta_angle self) (p1 self) (p2 self) (p3 self) (p4 self) (area self).

Definition set_beta_angle (self : Rectangle) (v : F) : Rectangle :=
  mkRectangle (x_center self) (y_center self) (radius self)
    (alpha_angle self) v (p1 self) (p2 self) (p3 self) (p4 self) (area self).

Definition set_p1 (self : Rectangle) (v : point) : Rectangle :=
  mkRectangle (x_center self) (y_center self) (radius self)
    (alpha_angle self) (beta_angle self) v (p2 self) (p3 self) (p4 self)
    (area self).

Definition set_p2 (self : Rectangle) (v : point) : Rectangle :=
  mkRectangle (x_center self) (y_center self) (radius self)
    (alpha_angle self) (beta_angle self) (p1 self) v (p3 self) (p4 self)
    (area self).

Definition set_p3 (self : Rectangle) (v : point) : Rectangle :=
  mkRectangle (x_center self) (y_center self) (radius self)
    (alpha_angle self) (beta_angle self) (p1 self) (p2 self) v (p4 self)
    (area self).

Definition set_p4 (self : Rectangle) (v : point) : Rectangle :=
  mkRectangle (x_center self) (y_center self) (radius self)
    (alpha_angle self) (beta_angle self) (p1 self) (p2 self) (p3 self) v
    (area self).

Definition set_area (self : Rectangle) (v : F) : Rectangle :=
  mkRectangle (x_center self) (y_center self) (radius self)
    (alpha_angle self) (beta_angle self) (p1 self) (p2 self) (p3 self)
    (p4 self) v.

(** What a mutator leaves behind: the state when it returns, or the exception
    and the state the object is in when the exception leaves the method. *)
Inductive outcome : Type :=
| Returned (self : Rectangle)
| Raised (e : exception) (self : Rectangle).

Definition state_after (o : outcome) : Rectangle :=
  match o with
  | Returned self => self
  | Raised _ self => self
  end.

(** Evaluates [r] inside a mutator whose object is [self] at that point. *)
Definition attempt {A : Type} (r : result A) (self : Rectangle)
  (k : A -> outcome) : outcome :=
  match r with
  | Ok a => k a
  | Raise e => Raised e self
  end.

Notation "'try?' x ':=' r 'on' self 'in' k" :=
  (attempt r self (fun x => k))
  (at level 10, x name, r at level 100, self at level 100, k at level 200).

(** ** Helper methods *)

(** [vertex_calculation]:
    [(self.radius * math.cos(angle) + self.x_center,
      self.radius * math.sin(angle) + self.y_center)],
    the first item evaluated before the second. *)
Definition vertex_calculation (self : Rectangle) (angle : F) : result point :=
  let? c := math_cos angle in
  let x := radius self * c + value (x_center self) in
  let? s := math_sin angle in
  let y := radius self * s + value (y_center self) in
  Ok (x, y).

(** [opposite_vertex]:
    [(2 * self.x_center - vertex[0], 2 * self.y_center - vertex[1])]. *)
Definition opposite_vertex (self : Rectangle) (vertex : point) : point :=
  (two * value (x_center self) - fst vertex,
   two * value (y_center self) - snd vertex).

(** [distance_calculation]:
    [math.sqrt(pow(a[0] - b[0], 2) + pow(a[1] - b[1], 2))].  The method takes
    [self] and does not read it. *)
Definition distance_calculation (self : Rectangle) (point_a point_b : point)
  : result F :=
  let? dx2 := builtin_pow_2 (fst point_a - fst point_b) in
  let? dy2 := builtin_pow_2 (snd point_a - snd point_b) in
  math_sqrt (dx2 + dy2).

(** [area_calculation]: product of the sides [p1 p2] and [p2 p3]. *)
Definition area_calculation (self : Rectangle) : result F :=
  let? side_a := distance_calculation self (p1 self) (p2 self) in
  let? side_b := distance_calculation self (p2 self) (p3 self) in
  Ok (side_a * side_b).

(** ** Constructor *)

(** An attribute that is not bound yet.  [__init__] assigns every attribute
    before any method reads it, so the value is never observed.  The
    parameters of [__init__] carry a prime: their source names are the names
    of the attributes.  When [__init__] raises there is no instance. *)
Definition unbound_point : point := (zero, zero).
Definition unbound_float : F := zero.

Definition __init__ (x_center' y_center' : object F)
  (radius' alpha_angle' beta_angle' : F) : result Rectangle :=
  let self :=
    mkRectangle x_center' y_center' (builtin_abs radius') alpha_angle'
      beta_angle' unbound_point unbound_point unbound_point unbound_point
      unbound_float in
  let? v := vertex_calculation self (alpha_angle self) in
  let self := set_p1 self v in
  let? v := vertex_calculation self (beta_angle self) in
  let self := set_p2 self v in
  let self := set_p3 self (opposite_vertex self (p1 self)) in
  let self := set_p4 self (opposite_vertex self (p2 self)) in
  let? a := area_calculation self in
  Ok (set_area self a).

(** ** Mutators *)

(** [change_x_center] and [change_y_center] only add and subtract: they
    always return. *)
Definition change_x_center (self : Rectangle) (new_x_center : object F)
  : Rectangle :=
  let delta := value new_x_center - value (x_center self) in
  let self := set_x_center self new_x_center in
  let self := set_p1 self (fst (p1 self) + delta, snd (p1 self)) in
  let self := set_p2 self (fst (p2 self) + delta, snd (p2 self)) in
  let self := set_p3 self (fst (p3 self) + delta, snd (p3 self)) in
  set_p4 self (fst (p4 self) + delta, snd (p4 self)).

Definition change_y_center (self : Rectangle) (new_y_center : object F)
  : Rectangle :=
  let delta := value new_y_center - value (y_center self) in
  let self := set_y_center self new_y_center in
  let self := set_p1 self (fst (p1 self), snd (p1 self) + delta) in
  let self := set_p2 self (fst (p2 self), snd (p2 self) + delta) in
  let self := set_p3 self (fst (p3 self), snd (p3 self) + delta) in
  set_p4 self (fst (p4 self), snd (p4 self) + delta).

Definition change_radius (self : Rectangle) (new_radius : F) : outcome :=
  let self := set_radius self (builtin_abs new_radius) in
  try? v := vertex_calculation self (alpha_angle self) on self in
  let self := set_p1 self v in
  try? v := vertex_calculation self (beta_angle self) on self in
  let self := set_p2 self v in
  let self := set_p3 self (opposite_vertex self (p1 self)) in
  let self := set_p4 self (opposite_vertex self (p2 self)) in
  try? a := area_calculation self on self in
  Returned (set_area self a).

Definition change_alpha_angle (self : Rectangle) (new_alpha_angle : F)
  : outcome :=
  let self := set_alpha_angle self new_alpha_angle in
  try? v := vertex_calculation self (alpha_angle self) on self in
  let self := set_p1 self v in
  let self := set_p3 self (opposite_vertex self (p1 self)) in
  try? a := area_calculation self on self in
  Returned (set_area self a).

Definition change_beta_angle (self : Rectangle) (new_beta_angle : F)
  : outcome :=
  let self := set_beta_angle self new_beta_angle in
  try? v := vertex_calculation self (beta_angle self) on self in
  let self := set_p2 self v in
  let self := set_p4 self (opposite_vertex self (p2 self)) in
  try? a := area_calculation self on self in
  Returned (set_area self a).

(** ** Accessors *)

Definition get_vertices (self : Rectangle) : list point :=
  [p1 self; p2 self; p3 self; p4 self].

Definition get_center (self : Rectangle) : object F * object F :=
  (x_center self, y_center self).

Definition get_x_center (self : Rectangle) : object F := x_center self.
Definition get_y_center (self : Rectangle) : object F := y_center self.
Definition get_radius (self : Rectangle) : F := radius self.
Definition get_alpha_angle (self : Rectangle) : F := alpha_angle self.
Definition get_beta_angle (self : Rectangle) : F := beta_angle self.

(** The two floats of a tuple of float objects, as arithmetic reads them. *)
Definition values (t : object F * object F) : point :=
  (value (fst t), value (snd t)).

(** ** Equality *)

(** The comparison of two items inside [==] on tuples
    ([PyObject_RichCompareBool]): the same object is equal to itself without
    being asked; two objects are compared by [==]. *)
Definition item_eq (v w : object F) : bool :=
  is_ v w || (value v == value w).

(** [a == b] on two tuples of two floats. *)
Definition tuple_eq (a b : object F * object F) : bool :=
  item_eq (fst a) (fst b) && item_eq (snd a) (snd b).

Definition __eq__ (self other : Rectangle) : bool :=
  tuple_eq (get_center self) (get_center other)
  && (radius self == get_radius other)
  && (((alpha_angle self == get_alpha_angle other)
       && (beta_angle self == get_beta_angle other))
      || ((alpha_angle self == get_beta_angle other)
          && (beta_angle self == get_alpha_angle other))).

(** ** Histories of an instance *)

(** One call of one of the five mutators. *)
Inductive mutator : Type :=
| Change_x_center (new_x_center : object F)
| Change_y_center (new_y_center : object F)
| Change_radius (new_radius : F)
| Change_alpha_angle (new_alpha_angle : F)
| Change_beta_angle (new_beta_angle : F).

Definition call (m : mutator) (self : Rectangle) : outcome :=
  match m with
  | Change_x_center v => Returned (change_x_center self v)
  | Change_y_center v => Returned (change_y_center self v)
  | Change_radius v => change_radius self v
  | Change_alpha_angle v => change_alpha_angle self v
  | Change_beta_angle v => change_beta_angle self v
  end.

(** The attribute a mutator is given a new value for. *)
Inductive parameter : Type :=
| X_center | Y_center | Radius | Alpha_angle | Beta_angle.

Definition target (m : mutator) : parameter :=
  match m with
  | Change_x_center _ => X_center
  | Change_y_center _ => Y_center
  | Change_radius _ => Radius
  | Change_alpha_angle _ => Alpha_angle
  | Change_beta_angle _ => Beta_angle
  end.

(** [change_x_center] and [change_y_center] move the vertices they find; the
    other three mutators compute vertices from the parameters. *)
Definition is_translation (m : mutator) : bool :=
  match m with
  | Change_x_center _ | Change_y_center _ => true
  | _ => false
  end.

(** The calls of [ms], first to last, up to the first that raises. *)
Fixpoint run (ms : list mutator) (self : Rectangle) : outcome :=
  match ms with
  | [] => Returned self
  | m :: ms' =>
      match call m self with
      | Returned self' => run ms' self'
      | Raised e self' => Raised e self'
      end
  end.

(** The states an instance can be in: built by an [__init__] that returned,
    then changed by any number of mutator calls, each of which returned or
    raised an exception that the caller caught. *)
Inductive reachable : Rectangle -> Prop :=
| reachable_init : forall x y r a b self,
    __init__ x y r a b = Ok self -> reachable self
| reachable_call : forall self m,
    reachable self -> reachable (state_after (call m self)).

(** The states whose vertices and area were all computed from the parameters
    they hold: no vertex has been moved by a translation since [__init__] or
    the last [change_radius] returned. *)
Inductive recomputed : Rectangle -> Prop :=
| recomputed_init : forall x y r a b self,
    __init__ x y r a b = Ok self -> recomputed self
| recomputed_radius : forall self v self',
    change_radius self v = Returned self' -> recomputed self'
| recomputed_alpha : forall self v self',
    recomputed self ->
    change_alpha_angle self v = Returned self' -> recomputed self'
| recomputed_beta : forall self v self',
    recomputed self ->
    change_beta_angle self v = Returned self' -> recomputed self'.

(** The instance [__init__] builds from the five parameters [self] holds. *)
Definition reconstruct (self : Rectangle) : result Rectangle :=
  __init__ (x_center self) (y_center self) (radius self) (alpha_angle self)
    (beta_angle self).

(** What a recomputed state satisfies. *)
Record consistent (self : Rectangle) : Prop := mkConsistent {
  cons_radius : builtin_abs (radius self) = radius self;
  cons_p1 : vertex_calculation self (alpha_angle self) = Ok (p1 self);
  cons_p2 : vertex_calculation self (beta_angle self) = Ok (p2 self);
  cons_p3 : p3 self = opposite_vertex self (p1 self);
  cons_p4 : p4 self = opposite_vertex self (p2 self);
  cons_area : area_calculation self = Ok (area self)
}.

(** The two calls of the translation scenario: [change_x_center] with the
    current [x_center] plus [d], then [change_y_center] with the current
    [y_center] plus [d].  The two sums are new objects, at addresses
    [ax] and [ay]. *)
Definition translate_by (self : Rectangle) (d : F) (ax ay : N) : Rectangle :=
  let self :=
    change_x_center self (mkObject (value (x_center self) + d) ax) in
  change_y_center self (mkObject (value (y_center self) + d) ay).

End Model.

Arguments Rectangle F : clear implicits.
Arguments point F : clear implicits.
Arguments outcome F : clear implicits.
Arguments mutator F : clear implicits.

(** * The two arithmetics *)

(** ** Python floats *)

Section Floats.

Local Open Scope float_scope.

(** [math.pi] and [math.pi / 2]. *)
Definition pi : float := 0x1.921fb54442d18p+1.
Definition half_pi : float := 0x1.921fb54442d18p+0.

(** CPython's wrapper [math_1] around a C function of one double: a NaN
    result for an argument that is not NaN, or an infinite result for a
    finite argument, raises. *)
Definition math_1 (func : float -> float) (can_overflow : bool) (x : float)
  : result float :=
  let r := func x in
  if is_nan r && negb (is_nan x) then Raise ValueError
  else if is_infinity r && is_finite x then
    Raise (if can_overflow then OverflowError else ValueError)
  else Ok r.

(** CPython's [float_pow] at the exponent [2.0]: NaN, the infinities, zero
    and one are answered at once; otherwise the C library's [pow] is called
    on the absolute value, and an infinite result raises [OverflowError].
    [libm_pow_2 x] is the C library's [pow(x, 2.0)], which need not be the
    correctly rounded square. *)
Definition float_pow_2 (libm_pow_2 : float -> float) (iv : float)
  : result float :=
  if is_nan iv then Ok iv
  else if is_infinity iv then Ok (abs iv)
  else if iv =? 0 then Ok 0
  else
    let iv := if iv <? 0 then - iv else iv in
    if iv =? 1 then Ok 1
    else
      let ix := libm_pow_2 iv in
      if is_infinity ix then Raise OverflowError else Ok ix.

(** Python floats, over the C library's [cos], [sin] and [pow(_, 2.0)] on
    doubles. *)
Definition binary64 (libm_cos libm_sin libm_pow_2 : float -> float)
  : Number float := {|
  add := PrimFloat.add;
  sub := PrimFloat.sub;
  mul := PrimFloat.mul;
  neg := PrimFloat.opp;
  two := 2;
  zero := 0;
  builtin_abs := PrimFloat.abs;
  builtin_pow_2 := float_pow_2 libm_pow_2;
  math_sqrt := math_1 PrimFloat.sqrt false;
  math_cos := math_1 libm_cos false;
  math_sin := math_1 libm_sin false;
  float_eq := PrimFloat.eqb;
  float_lt := PrimFloat.ltb;
  same_float := PrimFloat.Leibniz.eqb
|}.

(** ** A C library for the examples *)

(** The C library's [cos] and [sin] at the doubles the examples use: [0.0],
    [math.pi / 2], [math.pi] and [math.pi / 2 + 2 * math.pi], each entry
    [(x, (cos(x), sin(x)))].  [cos(0.0) = 1.0] and [sin(0.0) = 0.0] are
    exact; the other entries are the correctly rounded values, among them
    [cos(math.pi / 2) = 6.123233995736766e-17].  No other argument is
    tabulated: there the functions below give NaN, on which [math_1]
    raises. *)
Definition libm_table : list (float * (float * float)) :=
  [ (0, (1, 0));
    (half_pi, (0x1.1a62633145c07p-54, 1));
    (pi, (-1, 0x1.1a62633145c07p-53));
    (0x1.f6a7a2955385ep+2, (0x1.60fafbfd97309p-52, 1)) ].

Fixpoint libm_entry (table : list (float * (float * float))) (x : float)
  : option (float * float) :=
  match table with
  | [] => None
  | (x', entry) :: table' =>
      if PrimFloat.Leibniz.eqb x x' then Some entry else libm_entry table' x
  end.

Definition table_cos (x : float) : float :=
  match libm_entry libm_table x with
  | Some (c, _) => c
  | None => nan
  end.

Definition table_sin (x : float) : float :=
  match libm_entry libm_table x with
  | Some (_, s) => s
  | None => nan
  end.

(** [pow(x, 2.0)] at the arguments the examples reach: there the C library
    returns the correctly rounded square. *)
Definition table_pow_2 (x : float) : float := x * x.

Definition doubles : Number float :=
  binary64 table_cos table_sin table_pow_2.

(** ** Sample instances *)

(** The float object [0.0] of the examples. *)
Definition origin : object float := mkObject 0 1.

(** [Rectangle(0.0, 0.0, 1.0, 0.0, math.pi / 2)] *)
Definition quarter_turn : Rectangle float := {|
  x_center := origin;
  y_center := origin;
  radius := 1;
  alpha_angle := 0;
  beta_angle := half_pi;
  p1 := (1, 0);
  p2 := (0x1.1a62633145c07p-54, 1);
  p3 := (-1, 0);
  p4 := (-0x1.1a62633145c07p-54, -1);
  area := 2
|}.

(** [quarter_turn] after [change_x_center(3.0)] *)
Definition moved : Rectangle float :=
  change_x_center (num := doubles) quarter_turn (mkObject 3 2).

(** [quarter_turn] after [change_radius(2.0)] *)
Definition doubled : Rectangle float := {|
  x_center := origin;
  y_center := origin;
  radius := 2;
  alpha_angle := 0;
  beta_angle := half_pi;
  p1 := (2, 0);
  p2 := (0x1.1a62633145c07p-53, 2);
  p3 := (-2, 0);
  p4 := (-0x1.1a62633145c07p-53, -2);
  area := 8
|}.

(** [Rectangle(1.0, 2.0, 1.5, 0.0, 0.0)]: both diagonals on one line *)
Definition flat : Rectangle float := {|
  x_center := mkObject 1 3;
  y_center := mkObject 2 4;
  radius := 1.5;
  alpha_angle := 0;
  beta_angle := 0;
  p1 := (2.5, 2);
  p2 := (2.5, 2);
  p3 := (-0.5, 2);
  p4 := (-0.5, 2);
  area := 0
|}.

(** [flat] after [change_x_center(1e16)] *)
Definition far : Rectangle float :=
  change_x_center (num := doubles) flat (mkObject 1e16 5).

(** The float a call returned, or NaN. *)
Definition returned_float (r : result float) : float :=
  match r with
  | Ok a => a
  | Raise _ => nan
  end.

End Floats.

(** ** Exact arithmetic *)

(** Exact arithmetic on the real numbers: nothing rounds, nothing overflows,
    and [math.sqrt] still refuses a negative argument. *)
Definition real_eq (a b : R) : bool :=
  if Req_dec_T a b then true else false.

Definition real_lt (a b : R) : bool :=
  if Rlt_dec a b then true else false.

Definition real_sqrt (a : R) : result R :=
  if Rlt_dec a 0 then Raise ValueError else Ok (sqrt a).

Definition real_number : Number R := {|
  add := Rplus;
  sub := Rminus;
  mul := Rmult;
  neg := Ropp;
  two := 2%R;
  zero := 0%R;
  builtin_abs := Rabs;
  builtin_pow_2 := fun a => Ok (a ^ 2)%R;
  math_sqrt := real_sqrt;
  math_cos := fun a => Ok (cos a);
  math_sin := fun a => Ok (sin a);
  float_eq := real_eq;
  float_lt := real_lt;
  same_float := real_eq
|}.



(** ** Proof automation *)

(** Follows a computation that returned through its calls: every call in
    front of the result must have returned too. *)
Ltac follow_result H :=
  repeat
    match type of H with
    | bind ?r _ = _ =>
        let E := fresh "E" in
        destruct r eqn:E; cbn [bind] in H; [| discriminate H]
    | attempt ?r _ _ = Returned _ =>
        let E := fresh "E" in
        destruct r eqn:E; cbn [attempt] in H; [| discriminate H]
    end;
  first [ injection H as H | idtac ].

(** Reads the attributes of a record that is written out, and runs the
    assignments to it. *)
Ltac read_fields :=
  cbv beta iota zeta delta
    [x_center y_center radius alpha_angle beta_angle p1 p2 p3 p4 area
     set_x_center set_y_center set_radius set_alpha_angle set_beta_angle
     set_p1 set_p2 set_p3 set_p4 set_area
     bind attempt state_after fst snd value address] in *.

(** Unfolds the methods down to the operations on floats, and then follows
    each way the calls in the goal can end. *)
Ltac unfold_methods :=
  cbv beta iota zeta delta
    [run call __init__ change_x_center change_y_center
     change_radius change_alpha_angle change_beta_angle translate_by
     vertex_calculation opposite_vertex area_calculation
     distance_calculation get_vertices get_center get_x_center
     get_y_center get_radius get_alpha_angle get_beta_angle values
     x_center y_center radius alpha_angle beta_angle p1 p2 p3 p4 area
     set_x_center set_y_center set_radius set_alpha_angle set_beta_angle
     set_p1 set_p2 set_p3 set_p4 set_area
     bind attempt state_after fst snd value address] in *.

Ltac each_result :=
  repeat
    (match goal with
     | E : ?r = _ |- context [match ?r with Ok _ => _ | Raise _ => _ end] =>
         rewrite E
     | |- context [match ?r with Ok _ => _ | Raise _ => _ end] =>
         lazymatch r with
         | context [match _ with Ok _ => _ | Raise _ => _ end] => fail
         | _ => let E := fresh "E" in destruct r eqn:E
         end
     end;
     cbv beta iota).

(** Splits a mutator into the ways it can end. *)
Ltac each_ending :=
  repeat
    match goal with
    | |- context [attempt ?r _ _] => destruct r; cbn [attempt]
    end.

(** * Properties *)

Section Properties.

Context {F : Type} {num : Number F} {laws : NumberLaws num}.

Local Open Scope num_scope.

(** ** What [__init__] and the mutators establish *)

Lemma init_parameters x y r a b (self : Rectangle F) :
  __init__ x y r a b = Ok self ->
  x_center self = x /\ y_center self = y /\ radius self = builtin_abs r
  /\ alpha_angle self = a /\ beta_angle self = b.
Proof.
  unfold __init__. intros H. follow_result H. subst self.
  repeat split.
Qed.

Lemma init_consistent x y r a b (self : Rectangle F) :
  __init__ x y r a b = Ok self -> consistent self.
Proof.
  unfold __init__. intros H. follow_result H. subst self.
  constructor; cbn; try assumption; try reflexivity.
  apply abs_abs.
Qed.

Lemma change_radius_consistent (self self' : Rectangle F) v :
  change_radius self v = Returned self' -> consistent self'.
Proof.
  unfold change_radius. intros H. follow_result H. subst self'.
  constructor; cbn; try assumption; try reflexivity.
  apply abs_abs.
Qed.

Lemma change_alpha_angle_consistent (self self' : Rectangle F) v :
  consistent self ->
  change_alpha_angle self v = Returned self' -> consistent self'.
Proof.
  intros [Hr H1 H2 H3 H4 Ha]. unfold change_alpha_angle. intros H.
  follow_result H. subst self'.
  constructor; cbn; try assumption; try reflexivity.
Qed.

Lemma change_beta_angle_consistent (self self' : Rectangle F) v :
  consistent self ->
  change_beta_angle self v = Returned self' -> consistent self'.
Proof.
  intros [Hr H1 H2 H3 H4 Ha]. unfold change_beta_angle. intros H.
  follow_result H. subst self'.
  constructor; cbn; try assumption; try reflexivity.
Qed.

Lemma recomputed_consistent (self : Rectangle F) :
  recomputed self -> consistent self.
Proof.
  induction 1 as [x y r a b self H | self v self' H
                 | self v self' _ IH H | self v self' _ IH H].
  - exact (init_consistent _ _ _ _ _ _ H).
  - exact (change_radius_consistent _ _ _ H).
  - exact (change_alpha_angle_consistent _ _ _ IH H).
  - exact (change_beta_angle_consistent _ _ _ IH H).
Qed.

(** The helper methods read only some of the attributes. *)
Lemma vertex_calculation_reads (self self' : Rectangle F) angle :
  radius self = radius self' ->
  x_center self = x_center self' ->
  y_center self = y_center self' ->
  vertex_calculation self angle = vertex_calculation self' angle.
Proof.
  unfold vertex_calculation. intros -> -> ->. reflexivity.
Qed.

Lemma opposite_vertex_reads (self self' : Rectangle F) vertex :
  x_center self = x_center self' ->
  y_center self = y_center self' ->
  opposite_vertex self vertex = opposite_vertex self' vertex.
Proof.
  unfold opposite_vertex. intros -> ->. reflexivity.
Qed.

Lemma area_calculation_reads (self self' : Rectangle F) :
  p1 self = p1 self' -> p2 self = p2 self' -> p3 self = p3 self' ->
  area_calculation self = area_calculation self'.
Proof.
  unfold area_calculation, distance_calculation. intros -> -> ->.
  reflexivity.
Qed.

(** A consistent state is the one [__init__] builds from its parameters. *)
Lemma consistent_reconstruct (self : Rectangle F) :
  consistent self -> reconstruct self = Ok self.
Proof.
  intros [Hr H1 H2 H3 H4 Ha].
  destruct self as [xc yc r a b q1 q2 q3 q4 ar].
  unfold reconstruct, __init__. read_fields.
  rewrite Hr.
  rewrite (vertex_calculation_reads _ (mkRectangle xc yc r a b q1 q2 q3 q4 ar))
    by reflexivity.
  rewrite H1. read_fields.
  rewrite (vertex_calculation_reads _ (mkRectangle xc yc r a b q1 q2 q3 q4 ar))
    by reflexivity.
  rewrite H2. read_fields.
  rewrite (opposite_vertex_reads _ (mkRectangle xc yc r a b q1 q2 q3 q4 ar) q1)
    by reflexivity.
  rewrite (opposite_vertex_reads _ (mkRectangle xc yc r a b q1 q2 q3 q4 ar) q2)
    by reflexivity.
  rewrite <- H3, <- H4.
  rewrite (area_calculation_reads _ (mkRectangle xc yc r a b q1 q2 q3 q4 ar))
    by reflexivity.
  rewrite Ha. reflexivity.
Qed.

(** [__init__] reads its radius through [abs]. *)
Lemma init_abs x y r a b :
  __init__ x y (builtin_abs r) a b = __init__ x y r a b.
Proof.
  unfold __init__. rewrite abs_abs. reflexivity.
Qed.

(** ** What the mutators leave alone, whether they return or raise *)

Lemma change_radius_parameters (self : Rectangle F) v :
  x_center (state_after (change_radius self v)) = x_center self
  /\ y_center (state_after (change_radius self v)) = y_center self
  /\ radius (state_after (change_radius self v)) = builtin_abs v
  /\ alpha_angle (state_after (change_radius self v)) = alpha_angle self
  /\ beta_angle (state_after (change_radius self v)) = beta_angle self.
Proof.
  unfold change_radius. each_ending; repeat split.
Qed.

Lemma change_alpha_angle_parameters (self : Rectangle F) v :
  x_center (state_after (change_alpha_angle self v)) = x_center self
  /\ y_center (state_after (change_alpha_angle self v)) = y_center self
  /\ radius (state_after (change_alpha_angle self v)) = radius self
  /\ alpha_angle (state_after (change_alpha_angle self v)) = v
  /\ beta_angle (state_after (change_alpha_angle self v)) = beta_angle self
  /\ p2 (state_after (change_alpha_angle self v)) = p2 self
  /\ p4 (state_after (change_alpha_angle self v)) = p4 self.
Proof.
  unfold change_alpha_angle. each_ending; repeat split.
Qed.

Lemma change_beta_angle_parameters (self : Rectangle F) v :
  x_center (state_after (change_beta_angle self v)) = x_center self
  /\ y_center (state_after (change_beta_angle self v)) = y_center self
  /\ radius (state_after (change_beta_angle self v)) = radius self
  /\ alpha_angle (state_after (change_beta_angle self v)) = alpha_angle self
  /\ beta_angle (state_after (change_beta_angle self v)) = v
  /\ p1 (state_after (change_beta_angle self v)) = p1 self
  /\ p3 (state_after (change_beta_angle self v)) = p3 self.
Proof.
  unfold change_beta_angle. each_ending; repeat split.
Qed.

(** The radius an instance holds is an absolute value. *)
Lemma call_radius_is_abs (self : Rectangle F) m :
  builtin_abs (radius self) = radius self ->
  builtin_abs (radius (state_after (call m self)))
  = radius (state_after (call m self)).
Proof.
  intros H. destruct m as [v | v | v | v | v]; cbn [call state_after].
  - exact H.
  - exact H.
  - destruct (change_radius_parameters self v) as (_ & _ & -> & _).
    apply abs_abs.
  - destruct (change_alpha_angle_parameters self v) as (_ & _ & -> & _).
    exact H.
  - destruct (change_beta_angle_parameters self v) as (_ & _ & -> & _).
    exact H.
Qed.

Lemma reachable_radius_is_abs (self : Rectangle F) :
  reachable self -> builtin_abs (radius self) = radius self.
Proof.
  induction 1 as [x y r a b self H | self m _ IH].
  - destruct (init_parameters _ _ _ _ _ _ H) as (_ & _ & -> & _).
    apply abs_abs.
  - now apply call_radius_is_abs.
Qed.

(** ** The area after each call *)

Lemma change_alpha_angle_area (self self' : Rectangle F) v :
  change_alpha_angle self v = Returned self' ->
  area_calculation self' = Ok (area self').
Proof.
  unfold change_alpha_angle. intros H. follow_result H. subst self'.
  assumption.
Qed.

Lemma change_beta_angle_area (self self' : Rectangle F) v :
  change_beta_angle self v = Returned self' ->
  area_calculation self' = Ok (area self').
Proof.
  unfold change_beta_angle. intros H. follow_result H. subst self'.
  assumption.
Qed.

(** ** Equality, unfolded *)

Lemma item_eq_true (v w : object F) :
  item_eq v w = true
  <-> (address v = address w /\ value v = value w)
      \/ float_eq (value v) (value w) = true.
Proof.
  unfold item_eq, is_.
  rewrite orb_true_iff, andb_true_iff, N.eqb_eq, same_float_spec.
  reflexivity.
Qed.

Lemma eq_true_iff (a b : Rectangle F) :
  __eq__ a b = true <->
  (item_eq (x_center a) (x_center b) = true
   /\ item_eq (y_center a) (y_center b) = true)
  /\ float_eq (radius a) (radius b) = true
  /\ ((float_eq (alpha_angle a) (alpha_angle b) = true
       /\ float_eq (beta_angle a) (beta_angle b) = true)
      \/ (float_eq (alpha_angle a) (beta_angle b) = true
          /\ float_eq (beta_angle a) (alpha_angle b) = true)).
Proof.
  unfold __eq__, tuple_eq, get_center, get_radius, get_alpha_angle,
    get_beta_angle. cbn [fst snd].
  rewrite !andb_true_iff, orb_true_iff, !andb_true_iff.
  tauto.
Qed.

Lemma is_sym (v w : object F) : is_ v w = is_ w v.
Proof.
  unfold is_. rewrite N.eqb_sym. f_equal.
  apply eq_true_iff_eq. rewrite !same_float_spec.
  split; intros H; symmetry; exact H.
Qed.

Lemma item_eq_sym (v w : object F) : item_eq v w = item_eq w v.
Proof.
  unfold item_eq. now rewrite is_sym, float_eq_sym.
Qed.


Lemma eq_sym_bool (a b : Rectangle F) : __eq__ a b = __eq__ b a.
Proof.
  unfold __eq__, tuple_eq, get_center, get_radius, get_alpha_angle,
    get_beta_angle. cbn [fst snd].
  rewrite (item_eq_sym (x_center a)), (item_eq_sym (y_center a)).
  rewrite (float_eq_sym (radius a)).
  rewrite (float_eq_sym (alpha_angle a) (alpha_angle b)).
  rewrite (float_eq_sym (beta_angle a) (beta_angle b)).
  rewrite (float_eq_sym (alpha_angle a) (beta_angle b)).
  rewrite (float_eq_sym (beta_angle a) (alpha_angle b)).
  f_equal. f_equal. apply andb_comm.
Qed.


(** [a == a] asks [==] of the radius and the angles, not of the centre: the
    items of the two tuples are the same objects. *)
Lemma eq_refl_iff (a : Rectangle F) :
  __eq__ a a = true <->
  float_eq (radius a) (radius a) = true
  /\ float_eq (alpha_angle a) (alpha_angle a) = true
  /\ float_eq (beta_angle a) (beta_angle a) = true.
Proof.
  rewrite eq_true_iff.
  assert (Hi : forall v : object F, item_eq v v = true).
  { intros v. apply item_eq_true. left. split; reflexivity. }
  split.
  - intros (_ & Hr & [[Ha Hb] | [Ha Hb]]).
    + tauto.
    + split; [exact Hr |]. split.
      * apply float_eq_trans with (beta_angle a); assumption.
      * apply float_eq_trans with (alpha_angle a); assumption.
  - intros (Hr & Ha & Hb). split; [split; apply Hi |].
    split; [exact Hr |]. left. tauto.
Qed.




(** ** How calls compose *)

Lemma call_area (self self' : Rectangle F) m :
  is_translation m = false ->
  call m self = Returned self' ->
  area_calculation self' = Ok (area self').
Proof.
  destruct m as [v | v | v | v | v]; cbn [is_translation call];
    try discriminate; intros _ H.
  - exact (cons_area _ (change_radius_consistent _ _ _ H)).
  - exact (change_alpha_angle_area _ _ _ H).
  - exact (change_beta_angle_area _ _ _ H).
Qed.


Lemma call_returned_parameters_radius (self self' : Rectangle F) v :
  change_radius self v = Returned self' ->
  x_center self' = x_center self /\ y_center self' = y_center self
  /\ radius self' = builtin_abs v
  /\ alpha_angle self' = alpha_angle self
  /\ beta_angle self' = beta_angle self.
Proof.
  intros H. pose proof (change_radius_parameters self v) as P.
  rewrite H in P. exact P.
Qed.

Lemma call_returned_parameters_alpha (self self' : Rectangle F) v :
  change_alpha_angle self v = Returned self' ->
  x_center self' = x_center self /\ y_center self' = y_center self
  /\ radius self' = radius self
  /\ alpha_angle self' = v
  /\ beta_angle self' = beta_angle self.
Proof.
  intros H. pose proof (change_alpha_angle_parameters self v) as P.
  rewrite H in P. cbn [state_after] in P. tauto.
Qed.

Lemma call_returned_parameters_beta (self self' : Rectangle F) v :
  change_beta_angle self v = Returned self' ->
  x_center self' = x_center self /\ y_center self' = y_center self
  /\ radius self' = radius self
  /\ alpha_angle self' = alpha_angle self
  /\ beta_angle self' = v.
Proof.
  intros H. pose proof (change_beta_angle_parameters self v) as P.
  rewrite H in P. cbn [state_after] in P. tauto.
Qed.

(** The five mutators, each called once, rebuild the instance. *)
Lemma run_rebuilds (self self' : Rectangle F) x y r a b :
  run [Change_x_center x; Change_y_center y; Change_radius r;
       Change_alpha_angle a; Change_beta_angle b] self
  = Returned self' ->
  __init__ x y r a b = Ok self'.
Proof.
  cbn [run call].
  destruct (change_radius (change_y_center (change_x_center self x) y) r)
    as [s1 | e s1] eqn:E1; [| discriminate].
  destruct (change_alpha_angle s1 a) as [s2 | e s2] eqn:E2; [| discriminate].
  destruct (change_beta_angle s2 b) as [s3 | e s3] eqn:E3; [| discriminate].
  intros H. injection H as <-.
  pose proof (change_radius_consistent _ _ _ E1) as C1.
  pose proof (change_alpha_angle_consistent _ _ _ C1 E2) as C2.
  pose proof (change_beta_angle_consistent _ _ _ C2 E3) as C3.
  apply consistent_reconstruct in C3. unfold reconstruct in C3.
  destruct (call_returned_parameters_radius _ _ _ E1)
    as (X1 & Y1 & R1 & A1 & B1).
  destruct (call_returned_parameters_alpha _ _ _ E2)
    as (X2 & Y2 & R2 & A2 & B2).
  destruct (call_returned_parameters_beta _ _ _ E3)
    as (X3 & Y3 & R3 & A3 & B3).
  rewrite X3, X2, X1, Y3, Y2, Y1, R3, R2, R1, A3, A2, B3 in C3.
  cbn in C3. rewrite init_abs in C3. exact C3.
Qed.

(** Two consistent states with the same parameters are one state. *)
Lemma consistent_same_parameters (a b : Rectangle F) :
  consistent a -> consistent b ->
  x_center a = x_center b -> y_center a = y_center b ->
  radius a = radius b ->
  alpha_angle a = alpha_angle b -> beta_angle a = beta_angle b ->
  a = b.
Proof.
  intros Ca Cb Hx Hy Hr Hal Hbe.
  apply consistent_reconstruct in Ca, Cb. unfold reconstruct in Ca, Cb.
  rewrite Hx, Hy, Hr, Hal, Hbe in Ca. rewrite Ca in Cb.
  now injection Cb.
Qed.

(** A consistent state given the parameter it holds again is not changed. *)
Lemma consistent_set_again (self : Rectangle F) :
  consistent self ->
  change_radius self (radius self) = Returned self
  /\ change_alpha_angle self (alpha_angle self) = Returned self
  /\ change_beta_angle self (beta_angle self) = Returned self.
Proof.
  intros [Hr H1 H2 H3 H4 Ha].
  destruct self as [xc yc r a b q1 q2 q3 q4 ar]. read_fields.
  split; [| split].
  - unfold change_radius. read_fields. rewrite Hr, H1. read_fields.
    rewrite H2. read_fields. rewrite <- H3, <- H4, Ha. reflexivity.
  - unfold change_alpha_angle. read_fields. rewrite H1. read_fields.
    rewrite <- H3, Ha. reflexivity.
  - unfold change_beta_angle. read_fields. rewrite H2. read_fields.
    rewrite <- H4, Ha. reflexivity.
Qed.

(** When a mutator raises, its parameter is already assigned and the area
    is the one from before the call. *)
Lemma raised_state (self self' : Rectangle F) m e :
  call m self = Raised e self' ->
  area self' = area self
  /\ match m with
     | Change_radius v => radius self' = builtin_abs v
     | Change_alpha_angle v => alpha_angle self' = v
     | Change_beta_angle v => beta_angle self' = v
     | _ => False
     end.
Proof.
  destruct m as [v | v | v | v | v]; cbn [call]; try discriminate.
  - unfold change_radius.
    repeat match goal with
           | |- context [attempt ?r _ _] => destruct r; cbn [attempt]
           end;
      intros H; try discriminate H; injection H as _ <-; now split.
  - unfold change_alpha_angle.
    repeat match goal with
           | |- context [attempt ?r _ _] => destruct r; cbn [attempt]
           end;
      intros H; try discriminate H; injection H as _ <-; now split.
  - unfold change_beta_angle.
    repeat match goal with
           | |- context [attempt ?r _ _] => destruct r; cbn [attempt]
           end;
      intros H; try discriminate H; injection H as _ <-; now split.
Qed.

(** What each recomputing mutator reads of the state it is called on. *)
Lemma change_radius_reads (s t : Rectangle F) v r :
  x_center s = x_center t -> y_center s = y_center t ->
  alpha_angle s = alpha_angle t -> beta_angle s = beta_angle t ->
  change_radius s v = Returned r -> change_radius t v = Returned r.
Proof.
  destruct s as [xc yc r0 a b q1 q2 q3 q4 ar],
           t as [xc' yc' r0' a' b' q1' q2' q3' q4' ar'].
  read_fields. intros <- <- <- <-.
  unfold_methods. each_result;
    first [ exact (fun H => H) | discriminate ].
Qed.

Lemma change_alpha_angle_reads (s t : Rectangle F) v r :
  x_center s = x_center t -> y_center s = y_center t ->
  radius s = radius t -> beta_angle s = beta_angle t ->
  p2 s = p2 t -> p4 s = p4 t ->
  change_alpha_angle s v = Returned r -> change_alpha_angle t v = Returned r.
Proof.
  destruct s as [xc yc r0 a b q1 q2 q3 q4 ar],
           t as [xc' yc' r0' a' b' q1' q2' q3' q4' ar'].
  read_fields. intros <- <- <- <- <- <-.
  unfold_methods. each_result;
    first [ exact (fun H => H) | discriminate ].
Qed.

Lemma change_beta_angle_reads (s t : Rectangle F) v r :
  x_center s = x_center t -> y_center s = y_center t ->
  radius s = radius t -> alpha_angle s = alpha_angle t ->
  p1 s = p1 t -> p3 s = p3 t ->
  change_beta_angle s v = Returned r -> change_beta_angle t v = Returned r.
Proof.
  destruct s as [xc yc r0 a b q1 q2 q3 q4 ar],
           t as [xc' yc' r0' a' b' q1' q2' q3' q4' ar'].
  read_fields. intros <- <- <- <- <- <-.
  unfold_methods. each_result;
    first [ exact (fun H => H) | discriminate ].
Qed.

(** A second call that computes the same attribute replaces the first. *)
Lemma recomputation_overrides (self : Rectangle F) m1 m2 r :
  target m1 = target m2 ->
  is_translation m2 = false ->
  call m2 (state_after (call m1 self)) = Returned r
  <-> call m2 self = Returned r.
Proof.
  destruct m1 as [v1 | v1 | v1 | v1 | v1], m2 as [v2 | v2 | v2 | v2 | v2];
    cbn [target is_translation call]; try discriminate; intros _ _.
  - destruct (change_radius_parameters self v1) as (X & Y & _ & A & B).
    split; apply change_radius_reads; congruence.
  - destruct (change_alpha_angle_parameters self v1)
      as (X & Y & R & _ & B & P2 & P4).
    split; apply change_alpha_angle_reads; congruence.
  - destruct (change_beta_angle_parameters self v1)
      as (X & Y & R & A & _ & P1 & P3).
    split; apply change_beta_angle_reads; congruence.
Qed.

(** Calls that set different attributes, both translations or both
    recomputations, can be made in either order. *)
Lemma same_kind_calls_commute (self r1 r2 : Rectangle F) m1 m2 :
  target m1 <> target m2 ->
  is_translation m1 = is_translation m2 ->
  run [m1; m2] self = Returned r1 ->
  run [m2; m1] self = Returned r2 ->
  r1 = r2.
Proof.
  destruct m1 as [v1 | v1 | v1 | v1 | v1], m2 as [v2 | v2 | v2 | v2 | v2];
    cbn [target is_translation]; intros Ht Hk;
    try discriminate Hk; try (exfalso; apply Ht; reflexivity);
    clear Ht Hk;
    destruct self as [xc yc r0 a b [q1x q1y] [q2x q2y] [q3x q3y] [q4x q4y] ar];
    unfold_methods; each_result;
    intros H1 H2; try discriminate H1; try discriminate H2;
    injection H1 as <-; injection H2 as <-; reflexivity.
Qed.

(** The two translations of [translate_by], written out. *)
Lemma translate_by_moves (self : Rectangle F) d ax ay :
  p1 (translate_by self d ax ay)
  = (fst (p1 self) + (value (x_center self) + d - value (x_center self)),
     snd (p1 self) + (value (y_center self) + d - value (y_center self)))
  /\ p2 (translate_by self d ax ay)
     = (fst (p2 self) + (value (x_center self) + d - value (x_center self)),
        snd (p2 self) + (value (y_center self) + d - value (y_center self)))
  /\ p3 (translate_by self d ax ay)
     = (fst (p3 self) + (value (x_center self) + d - value (x_center self)),
        snd (p3 self) + (value (y_center self) + d - value (y_center self)))
  /\ p4 (translate_by self d ax ay)
     = (fst (p4 self) + (value (x_center self) + d - value (x_center self)),
        snd (p4 self) + (value (y_center self) + d - value (y_center self)))
  /\ radius (translate_by self d ax ay) = radius self
  /\ alpha_angle (translate_by self d ax ay) = alpha_angle self
  /\ beta_angle (translate_by self d ax ay) = beta_angle self
  /\ area (translate_by self d ax ay) = area self.
Proof.
  destruct self as [xc yc r0 a b [q1x q1y] [q2x q2y] [q3x q3y] [q4x q4y] ar].
  unfold_methods. repeat split.
Qed.

(** [change_radius] reads its argument through [abs]. *)
Lemma change_radius_neg (self : Rectangle F) v :
  change_radius self (- v) = change_radius self v.
Proof.
  unfold change_radius. now rewrite abs_neg.
Qed.



(** Two instances built from the same arguments, the angles exchanged. *)
Lemma eq_swapped (x y : object F) r al be (a b : Rectangle F) :
  __init__ x y r al be = Ok a ->
  __init__ x y r be al = Ok b ->
  __eq__ a b = true <->
  float_eq (builtin_abs r) (builtin_abs r) = true
  /\ float_eq al al = true /\ float_eq be be = true.
Proof.
  intros Ha Hb. rewrite eq_true_iff.
  destruct (init_parameters _ _ _ _ _ _ Ha) as (-> & -> & -> & -> & ->).
  destruct (init_parameters _ _ _ _ _ _ Hb) as (-> & -> & -> & -> & ->).
  split.
  - intros (_ & Hr & [[H1 H2] | [H1 H2]]).
    + split; [exact Hr |]. split.
      * exact (float_eq_trans _ _ _ H1 H2).
      * exact (float_eq_trans _ _ _ H2 H1).
    + tauto.
  - intros (Hr & H1 & H2).
    split; [split; apply item_eq_true; left; split; reflexivity |].
    split; [exact Hr |]. right. split; assumption.
Qed.

End Properties.

(** * Binary64: the program *)

(** ** The comparison and [abs] of binary64 *)

(** On binary64 the laws are read off the specification of the primitive
    operations. *)
Lemma SFcompare_Eq (x y : spec_float) :
  SFcompare x y = Some Eq ->
  (exists s s', x = S754_zero s /\ y = S754_zero s')
  \/ (x = y /\ x <> S754_nan).
Proof.
  destruct x as [s | s | | s m e], y as [s' | s' | | s' m' e'];
    cbn; try discriminate;
    try (destruct s; discriminate); try (destruct s'; discriminate).
  - intros _. left. now exists s, s'.
  - destruct s, s'; try discriminate; intros _; right;
      (split; [reflexivity | discriminate]).
  - destruct s, s'; try discriminate.
    + destruct (Z.compare e e') eqn:He; try discriminate.
      intros H. apply Z.compare_eq in He. subst e'.
      injection H as H. apply (f_equal CompOpp) in H.
      rewrite CompOpp_involutive in H. cbn in H.
      apply Pos.compare_eq in H. subst m'.
      right. split; [reflexivity | discriminate].
    + destruct (Z.compare e e') eqn:He; try discriminate.
      intros H. apply Z.compare_eq in He. subst e'.
      injection H as H. apply Pos.compare_eq in H. subst m'.
      right. split; [reflexivity | discriminate].
Qed.

Lemma SFcompare_refl (x : spec_float) :
  x <> S754_nan -> SFcompare x x = Some Eq.
Proof.
  destruct x as [s | s | | s m e]; cbn; intros H.
  - reflexivity.
  - now destruct s.
  - now contradiction H.
  - destruct s; rewrite Z.compare_refl;
      change (Pos.compare_cont Eq m m) with (Pos.compare m m);
      now rewrite Pos.compare_refl.
Qed.

Lemma SFeqb_true (x y : spec_float) :
  SFeqb x y = true <->
  (exists s s', x = S754_zero s /\ y = S754_zero s')
  \/ (x = y /\ x <> S754_nan).
Proof.
  unfold SFeqb. split.
  - destruct (SFcompare x y) as [[ | | ] |] eqn:H; try discriminate.
    intros _. now apply SFcompare_Eq.
  - intros [(s & s' & -> & ->) | [<- H]].
    + reflexivity.
    + now rewrite SFcompare_refl.
Qed.

Lemma float_eqb_sym (a b : float) : (a =? b)%float = (b =? a)%float.
Proof.
  rewrite !FloatAxioms.eqb_spec. apply eq_true_iff_eq. rewrite !SFeqb_true.
  split.
  - intros [(s & s' & -> & ->) | [-> H]]; [left; now exists s', s | now right].
  - intros [(s & s' & -> & ->) | [-> H]]; [left; now exists s', s | now right].
Qed.

Lemma float_eqb_trans (a b c : float) :
  (a =? b)%float = true -> (b =? c)%float = true -> (a =? c)%float = true.
Proof.
  rewrite !FloatAxioms.eqb_spec, !SFeqb_true.
  intros [(s & s' & Ha & Hb) | [Hab Ha]] [(t & t' & Hb' & Hc) | [Hbc Hb']].
  - left. now exists s, t'.
  - left. exists s, s'. split; congruence.
  - left. exists t, t'. split; congruence.
  - right. split; congruence.
Qed.

Lemma float_abs_opp (a : float) : abs (- a)%float = abs a.
Proof.
  apply Prim2SF_inj. rewrite !abs_spec, opp_spec.
  now destruct (Prim2SF a).
Qed.

Lemma float_abs_abs (a : float) : abs (abs a) = abs a.
Proof.
  apply Prim2SF_inj. rewrite !abs_spec. now destruct (Prim2SF a).
Qed.

Lemma float_abs_not_negative (a : float) : (abs a <? 0)%float = false.
Proof.
  rewrite FloatAxioms.ltb_spec, abs_spec.
  change (Prim2SF 0%float) with (S754_zero false).
  now destruct (Prim2SF a).
Qed.

(** Subtraction the other way round changes the sign of the difference at
    most; [pow(_, 2)] looks at the absolute value only. *)
Lemma SFabs_binary_round_aux (s : bool) (m e : Z) (l : location) :
  SFabs (binary_round_aux prec emax s m e l)
  = SFabs (binary_round_aux prec emax false m e l).
Proof.
  unfold binary_round_aux.
  destruct (shr_fexp prec emax m e l) as [mrs' e'].
  destruct (shr_fexp prec emax _ e' loc_Exact) as [mrs'' e''].
  destruct (shr_m mrs'') as [ | p | p]; try reflexivity.
  destruct (Z.leb e'' (emax - prec)); reflexivity.
Qed.

Lemma SFabs_binary_normalize (m e : Z) :
  SFabs (binary_normalize prec emax (- m) e false)
  = SFabs (binary_normalize prec emax m e false).
Proof.
  destruct m as [ | p | p]; cbn [Z.opp binary_normalize]; try reflexivity;
    unfold binary_round;
    destruct (shl_align p e _) as [mz ez];
    rewrite (SFabs_binary_round_aux true); reflexivity.
Qed.

Lemma SFabs_sub_sym (x y : spec_float) :
  SFabs (SFsub prec emax x y) = SFabs (SFsub prec emax y x).
Proof.
  destruct x as [sx | sx | | sx mx ex], y as [sy | sy | | sy my ey];
    try reflexivity;
    try (destruct sx, sy; reflexivity).
  cbn [SFsub]. rewrite (Z.min_comm ey ex).
  rewrite <- SFabs_binary_normalize. f_equal. f_equal. lia.
Qed.

Lemma float_abs_sub_sym (a b : float) : abs (a - b)%float = abs (b - a)%float.
Proof.
  apply Prim2SF_inj. rewrite !abs_spec, !sub_spec. apply SFabs_sub_sym.
Qed.

Lemma float_is_nan_abs (a : float) : is_nan (abs a) = is_nan a.
Proof.
  unfold is_nan. f_equal. rewrite !FloatAxioms.eqb_spec, abs_spec.
  destruct (Prim2SF a) as [s | s | | s m e]; try reflexivity;
    try (destruct s; reflexivity).
  unfold SFeqb. now rewrite !SFcompare_refl by discriminate.
Qed.

Lemma float_is_infinity_abs (a : float) : is_infinity (abs a) = is_infinity a.
Proof.
  unfold is_infinity. now rewrite float_abs_abs.
Qed.

Lemma float_eqb_zero_abs (a : float) : (abs a =? 0)%float = (a =? 0)%float.
Proof.
  rewrite !FloatAxioms.eqb_spec, abs_spec.
  change (Prim2SF 0%float) with (S754_zero false).
  destruct (Prim2SF a) as [s | s | | s m e]; try reflexivity;
    destruct s; reflexivity.
Qed.

Lemma float_magnitude (a : float) :
  (a =? 0)%float = false ->
  (if (a <? 0)%float then (- a)%float else a) = abs a.
Proof.
  rewrite FloatAxioms.eqb_spec. intros Hz.
  destruct (a <? 0)%float eqn:Hl; rewrite FloatAxioms.ltb_spec in Hl;
    apply Prim2SF_inj; rewrite ?opp_spec, abs_spec;
    change (Prim2SF 0%float) with (S754_zero false) in *;
    destruct (Prim2SF a) as [s | s | | s m e];
    try destruct s; try discriminate; reflexivity.
Qed.

Lemma float_pow_2_abs (libm_pow_2 : float -> float) (a : float) :
  float_pow_2 libm_pow_2 (abs a) = float_pow_2 libm_pow_2 a.
Proof.
  unfold float_pow_2.
  rewrite float_is_nan_abs, float_is_infinity_abs, float_eqb_zero_abs,
    float_abs_abs, float_abs_not_negative.
  destruct (is_nan a) eqn:Hn.
  - f_equal. unfold is_nan in Hn. apply Prim2SF_inj. rewrite abs_spec.
    rewrite FloatAxioms.eqb_spec in Hn.
    destruct (Prim2SF a) as [s | s | | s m e]; try reflexivity;
      exfalso; unfold SFeqb in Hn;
      rewrite SFcompare_refl in Hn by discriminate; discriminate Hn.
  - destruct (is_infinity a); [reflexivity |].
    destruct (a =? 0)%float eqn:Hz; [reflexivity |].
    now rewrite (float_magnitude a Hz).
Qed.

Lemma float_pow_2_sub_sym (libm_pow_2 : float -> float) (a b : float) :
  float_pow_2 libm_pow_2 (a - b)%float = float_pow_2 libm_pow_2 (b - a)%float.
Proof.
  rewrite <- (float_pow_2_abs libm_pow_2 (a - b)),
    <- (float_pow_2_abs libm_pow_2 (b - a)).
  now rewrite float_abs_sub_sym.
Qed.

Lemma float_sqrt_not_negative (a : float) :
  (PrimFloat.sqrt a <? 0)%float = false.
Proof.
  rewrite FloatAxioms.ltb_spec, sqrt_spec.
  change (Prim2SF 0%float) with (S754_zero false).
  unfold SF64sqrt, SFsqrt.
  destruct (Prim2SF a) as [s | s | | s m e]; try destruct s; try reflexivity.
  destruct (SFsqrt_core_binary prec emax (Z.pos m) e) as [[mz ez] lz].
  unfold binary_round_aux.
  destruct (shr_fexp prec emax mz ez lz) as [mrs' e'].
  destruct (shr_fexp prec emax _ e' loc_Exact) as [mrs'' e''].
  destruct (shr_m mrs'') as [ | p | p]; try reflexivity.
  destruct (Z.leb e'' (emax - prec)); reflexivity.
Qed.

Lemma float_sub_diag (a : float) :
  is_finite a = true -> (a - a)%float = 0%float.
Proof.
  unfold is_finite, is_nan, is_infinity.
  rewrite !FloatAxioms.eqb_spec, abs_spec.
  change (Prim2SF infinity) with (S754_infinity false).
  intros H. apply Prim2SF_inj. rewrite sub_spec.
  change (Prim2SF 0%float) with (S754_zero false).
  destruct (Prim2SF a) as [s | s | | s m e].
  - now destruct s.
  - destruct s; discriminate H.
  - discriminate H.
  - unfold SF64sub. cbn [SFsub]. now rewrite Z.sub_diag.
Qed.

(** ** The program, over any C library *)

Section Binary64.

Local Open Scope float_scope.

(** The C library's [cos], [sin] and [pow(_, 2.0)] on doubles: the
    properties of the program hold whatever their values. *)
Variables libm_cos libm_sin libm_pow_2 : float -> float.

#[local] Hint Extern 0 (Number float) =>
  exact (binary64 libm_cos libm_sin libm_pow_2) : typeclass_instances.

Lemma binary64_laws : NumberLaws (binary64 libm_cos libm_sin libm_pow_2).
Proof.
  constructor; cbn.
  - exact float_abs_opp.
  - exact float_abs_abs.
  - exact float_abs_not_negative.
  - exact float_eqb_sym.
  - exact float_eqb_trans.
  - exact FloatAxioms.Leibniz.eqb_spec.
Qed.

#[local] Existing Instance binary64_laws.

(** ** The properties of the class documentation *)

Lemma float_eq_self (a : float) : (a =? a) = true <-> is_nan a = false.
Proof.
  unfold is_nan. destruct (a =? a); cbn; split; congruence.
Qed.

(** C1.  The stored [area] is the product of the distances [p1 p2] and
    [p2 p3] of the vertices the instance holds whenever it has just been
    computed: when [__init__] returns, and when [change_radius],
    [change_alpha_angle] or [change_beta_angle] returns, on whatever state
    it was called.  [change_x_center] and [change_y_center] do not assign
    [area]: they move the vertices and keep the stored value. *)
Theorem area_is_side_product :
  (forall (x y : object float) (r a b : float) (self : Rectangle float),
     __init__ x y r a b = Ok self ->
     area_calculation self = Ok (area self))
  /\ (forall (self self' : Rectangle float) (m : mutator float),
        is_translation m = false ->
        call m self = Returned self' ->
        area_calculation self' = Ok (area self'))
  /\ (forall (self : Rectangle float) (m : mutator float),
        is_translation m = true ->
        area (state_after (call m self)) = area self).
Proof.
  split; [| split].
  - intros x y r a b self H.
    exact (cons_area _ (init_consistent _ _ _ _ _ _ H)).
  - intros self self' m. apply call_area.
  - intros self [v | v | v | v | v]; cbn [is_translation]; try discriminate;
      reflexivity.
Qed.

(** C2.  In every state whose vertices were all computed from the parameters
    it holds (built by [__init__], recomputed by [change_radius], changed by
    [change_alpha_angle] and [change_beta_angle], with no translation since),
    [p3 = (2 * x_center - p1.x, 2 * y_center - p1.y)] and
    [p4 = (2 * x_center - p2.x, 2 * y_center - p2.y)], bit for bit. *)
Theorem opposite_vertices (self : Rectangle float) :
  recomputed self ->
  p3 self
  = (2 * value (x_center self) - fst (p1 self),
     2 * value (y_center self) - snd (p1 self))
  /\ p4 self
     = (2 * value (x_center self) - fst (p2 self),
        2 * value (y_center self) - snd (p2 self)).
Proof.
  intros H. destruct (recomputed_consistent self H) as [_ _ _ H3 H4 _].
  split; assumption.
Qed.

(** C4.  With the C library's values at [0.0] and [math.pi / 2], and its
    [pow(0.9999999999999999, 2.0) = 0.9999999999999998],
    [Rectangle(0, 0, 1, 0, math.pi / 2)] is built with [p1 = (1, 0)],
    [p2 = (c, 1)], [p3 = (-1, 0)] and [p4 = (-c, -1)], where
    [c = cos(math.pi / 2) = 6.123233995736766e-17]; the side [p1 p2] is
    [1.414213562373095], the side [p2 p3] is [1.4142135623730951], and the
    area is [2]. *)
Theorem quarter_turn_scenario (x y : object float) :
  value x = 0 -> value y = 0 ->
  libm_cos 0 = 1 -> libm_sin 0 = 0 ->
  libm_cos half_pi = 0x1.1a62633145c07p-54 -> libm_sin half_pi = 1 ->
  libm_pow_2 0x1.fffffffffffffp-1 = 0x1.ffffffffffffep-1 ->
  exists self : Rectangle float,
    __init__ x y 1 0 half_pi = Ok self
    /\ p1 self = (1, 0)
    /\ p2 self = (0x1.1a62633145c07p-54, 1)
    /\ p3 self = (-1, 0)
    /\ p4 self = (-0x1.1a62633145c07p-54, -1)
    /\ distance_calculation self (p1 self) (p2 self)
       = Ok 0x1.6a09e667f3bccp+0
    /\ distance_calculation self (p2 self) (p3 self)
       = Ok 0x1.6a09e667f3bcdp+0
    /\ area self = 2.
Proof.
  destruct x as [vx ax], y as [vy ay]. cbn [value].
  intros -> -> C0 S0 C1 S1 P.
  assert (Hc0 : math_cos (0 : float) = Ok (1 : float)).
  { cbn [math_cos binary64]. unfold math_1. rewrite C0. reflexivity. }
  assert (Hs0 : math_sin (0 : float) = Ok (0 : float)).
  { cbn [math_sin binary64]. unfold math_1. rewrite S0. reflexivity. }
  assert (Hc1 : math_cos half_pi = Ok (0x1.1a62633145c07p-54 : float)).
  { cbn [math_cos binary64]. unfold math_1. rewrite C1. reflexivity. }
  assert (Hs1 : math_sin half_pi = Ok (1 : float)).
  { cbn [math_sin binary64]. unfold math_1. rewrite S1. reflexivity. }
  eexists. split.
  - unfold __init__, vertex_calculation. read_fields.
    rewrite Hc0, Hs0. read_fields. rewrite Hc1, Hs1. read_fields.
    vm_compute. rewrite P. vm_compute. reflexivity.
  - vm_compute. rewrite P. vm_compute. repeat split.
Qed.

(** C5.  For every instance and every [d], [change_x_center(x_center + d)]
    followed by [change_y_center(y_center + d)] adds to every vertex the
    pair [(dx, dy)] of the two deltas the methods compute,
    [dx = (x_center + d) - x_center] and [dy = (y_center + d) - y_center],
    each sum rounded on its own, and leaves [radius], [alpha_angle],
    [beta_angle] and [area] as they were. *)
Theorem translation_keeps_shape (self : Rectangle float) (d : float)
  (ax ay : N) :
  p1 (translate_by self d ax ay)
  = (fst (p1 self) + (value (x_center self) + d - value (x_center self)),
     snd (p1 self) + (value (y_center self) + d - value (y_center self)))
  /\ p2 (translate_by self d ax ay)
     = (fst (p2 self) + (value (x_center self) + d - value (x_center self)),
        snd (p2 self) + (value (y_center self) + d - value (y_center self)))
  /\ p3 (translate_by self d ax ay)
     = (fst (p3 self) + (value (x_center self) + d - value (x_center self)),
        snd (p3 self) + (value (y_center self) + d - value (y_center self)))
  /\ p4 (translate_by self d ax ay)
     = (fst (p4 self) + (value (x_center self) + d - value (x_center self)),
        snd (p4 self) + (value (y_center self) + d - value (y_center self)))
  /\ radius (translate_by self d ax ay) = radius self
  /\ alpha_angle (translate_by self d ax ay) = alpha_angle self
  /\ beta_angle (translate_by self d ax ay) = beta_angle self
  /\ area (translate_by self d ax ay) = area self.
Proof.
  exact (translate_by_moves self d ax ay).
Qed.

(** C6.  [__init__] with radius [- r] does what it does with radius [r]: it
    raises the same exception or builds the very same state, whose
    [get_radius] is [abs(r)]; and [change_radius] stores [abs] of its
    argument, before anything in it can raise. *)
Theorem negative_radius_normalized (xc yc : object float) (r a b : float)
  (self : Rectangle float) :
  __init__ xc yc (- r) a b = __init__ xc yc r a b
  /\ (forall built : Rectangle float,
        __init__ xc yc r a b = Ok built -> get_radius built = abs r)
  /\ get_radius (state_after (change_radius self r)) = abs r.
Proof.
  split; [| split].
  - unfold __init__. cbn [builtin_abs binary64]. now rewrite float_abs_opp.
  - intros built H.
    destruct (init_parameters _ _ _ _ _ _ H) as (_ & _ & Hr & _).
    exact Hr.
  - destruct (change_radius_parameters self r) as (_ & _ & Hr & _).
    exact Hr.
Qed.

(** C7.  [a == b] is true exactly when the two [x_center] and the two
    [y_center] compare equal as items of a tuple (the same object, or [==]
    on the values), the radii are [==], and the angles are [==] either in
    order or swapped.  So [Rectangle(0, 0, 5, 0, math.pi / 2)] equals
    [Rectangle(0, 0, 5, math.pi / 2, 0)] and differs from
    [Rectangle(0, 0, 5, 0, math.pi / 2 + 2 * math.pi)]; and an instance
    differs from the one built with [beta_angle + 2 * math.pi] wherever that
    sum is not [beta_angle] again. *)
Theorem eq_unordered_angles :
  (forall a b : Rectangle float,
     __eq__ a b = true <->
     (item_eq (x_center a) (x_center b) = true
      /\ item_eq (y_center a) (y_center b) = true)
     /\ (radius a =? radius b) = true
     /\ (((alpha_angle a =? alpha_angle b) = true
          /\ (beta_angle a =? beta_angle b) = true)
         \/ ((alpha_angle a =? beta_angle b) = true
             /\ (beta_angle a =? alpha_angle b) = true)))
  /\ (forall (xa ya xb yb : N) (a b : Rectangle float),
        __init__ (mkObject 0 xa) (mkObject 0 ya) 5 0 half_pi = Ok a ->
        __init__ (mkObject 0 xb) (mkObject 0 yb) 5 half_pi 0 = Ok b ->
        __eq__ a b = true)
  /\ (forall (xa ya xb yb : N) (a b : Rectangle float),
        __init__ (mkObject 0 xa) (mkObject 0 ya) 5 0 half_pi = Ok a ->
        __init__ (mkObject 0 xb) (mkObject 0 yb) 5 0 (half_pi + 2 * pi)
        = Ok b ->
        __eq__ a b = false)
  /\ (forall (xc yc : object float) (r al be : float)
        (a b : Rectangle float),
        __init__ xc yc r al be = Ok a ->
        __init__ xc yc r al (be + 2 * pi) = Ok b ->
        (be + 2 * pi =? be) = false ->
        __eq__ a b = false).
Proof.
  split; [exact eq_true_iff |]. split; [| split].
  - intros xa ya xb yb a b Ha Hb. apply eq_true_iff.
    destruct (init_parameters _ _ _ _ _ _ Ha) as (-> & -> & -> & -> & ->).
    destruct (init_parameters _ _ _ _ _ _ Hb) as (-> & -> & -> & -> & ->).
    split; [split; apply item_eq_true; right; reflexivity |].
    split; [reflexivity |]. right. split; reflexivity.
  - intros xa ya xb yb a b Ha Hb.
    apply not_true_is_false. rewrite eq_true_iff.
    destruct (init_parameters _ _ _ _ _ _ Ha) as (_ & _ & _ & -> & ->).
    destruct (init_parameters _ _ _ _ _ _ Hb) as (_ & _ & _ & -> & ->).
    intros (_ & _ & [[_ H] | [H _]]); vm_compute in H; discriminate H.
  - intros xc yc r al be a b Ha Hb Hne.
    apply not_true_is_false. rewrite eq_true_iff.
    destruct (init_parameters _ _ _ _ _ _ Ha) as (_ & _ & _ & -> & ->).
    destruct (init_parameters _ _ _ _ _ _ Hb) as (_ & _ & _ & -> & ->).
    cbn [float_eq binary64].
    intros (_ & _ & [[_ H] | [H1 H2]]).
    + rewrite float_eqb_sym in H. congruence.
    + rewrite float_eqb_sym in H1.
      pose proof (float_eqb_trans _ _ _ H1 (eq_ind _ (fun c => c = true)
                    H2 _ (float_eqb_sym be al))) as H.
      congruence.
Qed.



(** C10.  [==] is symmetric: [a == b] has the value of [b == a].  [a == a]
    is true exactly when none of [radius], [alpha_angle] and [beta_angle]
    is NaN; the centre does not matter, because the items of a tuple that
    are the same object compare equal. *)
Theorem eq_symmetric_reflexive :
  (forall a b : Rectangle float, __eq__ a b = __eq__ b a)
  /\ (forall a : Rectangle float,
        __eq__ a a = true <->
        is_nan (radius a) = false
        /\ is_nan (alpha_angle a) = false
        /\ is_nan (beta_angle a) = false).
Proof.
  split.
  - exact eq_sym_bool.
  - intros a. rewrite eq_refl_iff. cbn [float_eq binary64].
    now rewrite !float_eq_self.
Qed.


(** ** Further properties of the program *)

(** X7.  In every reachable state, after [__init__] and any sequence of
    mutator calls that returned or raised, the radius is not negative: it is
    its own absolute value, and [radius < 0] is false. *)
Theorem radius_never_negative (self : Rectangle float) :
  reachable self ->
  abs (get_radius self) = get_radius self
  /\ (get_radius self <? 0) = false.
Proof.
  intros H. unfold get_radius.
  pose proof (reachable_radius_is_abs self H) as Hr.
  split; [exact Hr |]. rewrite <- Hr. apply float_abs_not_negative.
Qed.

(** X15.  A second call of [change_radius], [change_alpha_angle] or
    [change_beta_angle] replaces the first: after a call [m1] of the same
    mutator, returned or raised, a call [m2] returns exactly the state it
    returns when [m1] is left out. *)
Theorem last_call_wins (self self' : Rectangle float) (m1 m2 : mutator float) :
  target m1 = target m2 ->
  is_translation m2 = false ->
  call m2 (state_after (call m1 self)) = Returned self'
  <-> call m2 self = Returned self'.
Proof.
  apply recomputation_overrides.
Qed.

(** X16.  Two calls that set different attributes commute when both are
    translations or both are recomputations: if the two calls return in
    either order, the two orders leave the same state. *)
Theorem calls_commute (self r1 r2 : Rectangle float) (m1 m2 : mutator float) :
  target m1 <> target m2 ->
  is_translation m1 = is_translation m2 ->
  run [m1; m2] self = Returned r1 ->
  run [m2; m1] self = Returned r2 ->
  r1 = r2.
Proof.
  apply same_kind_calls_commute.
Qed.

(** X17.  When [change_x_center(x)], [change_y_center(y)],
    [change_radius(r)], [change_alpha_angle(alpha)] and
    [change_beta_angle(beta)], called in this order on any instance, all
    return, [Rectangle(x, y, r, alpha, beta)] returns too and is exactly the
    state they leave: nothing of the earlier state survives. *)
Theorem mutators_rebuild (self self' : Rectangle float) (x y : object float)
  (r alpha beta : float) :
  run [Change_x_center x; Change_y_center y; Change_radius r;
       Change_alpha_angle alpha; Change_beta_angle beta] self
  = Returned self' ->
  __init__ x y r alpha beta = Ok self'.
Proof.
  apply run_rebuilds.
Qed.

(** X19.  On a state whose vertices were all computed from the parameters it
    holds, [change_radius], [change_alpha_angle] and [change_beta_angle]
    called with the value their getter returns return the state
    unchanged. *)
Theorem set_to_current_value (self : Rectangle float) :
  recomputed self ->
  change_radius self (get_radius self) = Returned self
  /\ change_alpha_angle self (get_alpha_angle self) = Returned self
  /\ change_beta_angle self (get_beta_angle self) = Returned self.
Proof.
  intros H. exact (consistent_set_again self (recomputed_consistent self H)).
Qed.

(** X20.  A state whose vertices were all computed from the parameters it
    holds is determined by the five parameters: two such states with the
    same centre objects, radius and angles have the same vertices and the
    same area. *)
Theorem parameters_determine_state (a b : Rectangle float) :
  recomputed a -> recomputed b ->
  get_center a = get_center b ->
  get_radius a = get_radius b ->
  get_alpha_angle a = get_alpha_angle b ->
  get_beta_angle a = get_beta_angle b ->
  a = b.
Proof.
  intros Ha Hb Hc Hr Hal Hbe. unfold get_center in Hc.
  injection Hc as Hx Hy.
  apply consistent_same_parameters;
    try assumption; now apply recomputed_consistent.
Qed.


(** X29.  A mutator that raises has already assigned its parameter: when
    [change_radius], [change_alpha_angle] or [change_beta_angle] raises, the
    instance holds the new radius (as [abs]) or the new angle, and the
    [area] from before the call.  [change_x_center] and [change_y_center]
    never raise. *)
Theorem raise_keeps_assignment (self self' : Rectangle float)
  (m : mutator float) (e : exception) :
  call m self = Raised e self' ->
  area self' = area self
  /\ match m with
     | Change_radius v => radius self' = abs v
     | Change_alpha_angle v => alpha_angle self' = v
     | Change_beta_angle v => beta_angle self' = v
     | _ => False
     end.
Proof.
  intros H. exact (raised_state self self' m e H).
Qed.


(** X31.  [Rectangle(x, y, r, alpha, beta)] and
    [Rectangle(x, y, r, beta, alpha)], built from the same five objects,
    are equal exactly when none of [r], [alpha] and [beta] is NaN. *)
Theorem eq_swapped_angles (x y : object float) (r al be : float)
  (a b : Rectangle float) :
  __init__ x y r al be = Ok a ->
  __init__ x y r be al = Ok b ->
  __eq__ a b = true <->
  is_nan r = false /\ is_nan al = false /\ is_nan be = false.
Proof.
  intros Ha Hb. rewrite (eq_swapped _ _ _ _ _ _ _ Ha Hb).
  cbn [float_eq builtin_abs binary64].
  now rewrite !float_eq_self, float_is_nan_abs.
Qed.

(** X32.  [change_radius(- r)] does what [change_radius(r)] does: the two
    calls return the same state, or raise the same exception and leave the
    same state. *)
Theorem change_radius_sign (self : Rectangle float) (r : float) :
  change_radius self (- r) = change_radius self r.
Proof.
  exact (change_radius_neg self r).
Qed.

(** X33.  [distance_calculation] does not depend on the order of its two
    points: it returns the same float or raises the same exception.  A
    distance it returns is not negative, and the distance of a point with
    finite coordinates to itself is [0.0]. *)
Theorem distance_calculation_symmetric (self : Rectangle float)
  (point_a point_b : point float) :
  distance_calculation self point_a point_b
  = distance_calculation self point_b point_a
  /\ (forall d : float,
        distance_calculation self point_a point_b = Ok d -> (d <? 0) = false)
  /\ (is_finite (fst point_a) = true -> is_finite (snd point_a) = true ->
      distance_calculation self point_a point_a = Ok 0).
Proof.
  unfold distance_calculation. cbn [builtin_pow_2 sub add math_sqrt binary64].
  split; [| split].
  - now rewrite (float_pow_2_sub_sym _ (fst point_a)),
      (float_pow_2_sub_sym _ (snd point_a)).
  - intros d.
    destruct (float_pow_2 libm_pow_2 (fst point_a - fst point_b))
      as [dx2 | e]; [| discriminate].
    destruct (float_pow_2 libm_pow_2 (snd point_a - snd point_b))
      as [dy2 | e]; [| discriminate].
    cbn [bind]. unfold math_1.
    destruct (is_nan (PrimFloat.sqrt (dx2 + dy2))
              && negb (is_nan (dx2 + dy2)));
      [discriminate |].
    destruct (is_infinity (PrimFloat.sqrt (dx2 + dy2))
              && is_finite (dx2 + dy2));
      [discriminate |].
    intros H. injection H as <-. apply float_sqrt_not_negative.
  - intros Hx Hy. rewrite (float_sub_diag _ Hx), (float_sub_diag _ Hy).
    reflexivity.
Qed.

End Binary64.

(** * Examples on binary64 *)

Section Examples.

#[local] Existing Instance doubles.

Local Open Scope float_scope.

(** Refutes an equation between two values that a test [f] tells apart. *)
Ltac told_apart_by f :=
  let H := fresh "H" in
  let X := fresh "X" in
  intros H; pose proof (f_equal f H) as X; vm_compute in X; discriminate X.

Lemma quarter_turn_built :
  __init__ origin origin 1 0 half_pi = Ok quarter_turn.
Proof.
  vm_compute. reflexivity.
Qed.

Lemma flat_built :
  __init__ (mkObject 1 3) (mkObject 2 4) 1.5 0 0 = Ok flat.
Proof.
  vm_compute. reflexivity.
Qed.

Lemma doubled_returned : change_radius quarter_turn 2 = Returned doubled.
Proof.
  vm_compute. reflexivity.
Qed.

Lemma quarter_turn_recomputed : recomputed quarter_turn.
Proof.
  exact (recomputed_init _ _ _ _ _ _ quarter_turn_built).
Qed.

Lemma quarter_turn_reachable : reachable quarter_turn.
Proof.
  exact (reachable_init _ _ _ _ _ _ quarter_turn_built).
Qed.

Lemma moved_reachable : reachable moved.
Proof.
  exact (reachable_call quarter_turn (Change_x_center (mkObject 3 2))
           quarter_turn_reachable).
Qed.

Lemma far_reachable : reachable far.
Proof.
  exact (reachable_call flat (Change_x_center (mkObject 1e16 5))
           (reachable_init _ _ _ _ _ _ flat_built)).
Qed.

(** ** The documented properties at the samples *)

Lemma area_is_side_product_witness :
  __init__ origin origin 1 0 half_pi = Ok quarter_turn
  /\ area_calculation quarter_turn = Ok (area quarter_turn).
Proof.
  split.
  - exact quarter_turn_built.
  - exact (proj1 (area_is_side_product table_cos table_sin table_pow_2)
             origin origin 1 0 half_pi quarter_turn quarter_turn_built).
Defined.

(** [Rectangle(0, 0, 1, 0, math.pi / 2)] moved to [x_center = 3.0] still
    holds [area = 2.0], and the sides of the vertices it then holds multiply
    to [2.0000000000000004]. *)
Lemma translated_area_is_stale :
  __init__ origin origin 1 0 half_pi = Ok quarter_turn
  /\ reachable moved
  /\ area moved = 2
  /\ area_calculation moved = Ok 0x1.0000000000001p+1
  /\ area_calculation moved <> Ok (area moved).
Proof.
  split; [exact quarter_turn_built |].
  split; [exact moved_reachable |].
  split; [vm_compute; reflexivity |].
  split; [vm_compute; reflexivity |].
  told_apart_by (fun r => returned_float r =? 2).
Qed.

Lemma opposite_vertices_witness :
  recomputed quarter_turn
  /\ p3 quarter_turn
     = (2 * value (x_center quarter_turn) - fst (p1 quarter_turn),
        2 * value (y_center quarter_turn) - snd (p1 quarter_turn))
  /\ p4 quarter_turn
     = (2 * value (x_center quarter_turn) - fst (p2 quarter_turn),
        2 * value (y_center quarter_turn) - snd (p2 quarter_turn)).
Proof.
  split.
  - exact quarter_turn_recomputed.
  - exact (opposite_vertices table_cos table_sin table_pow_2 quarter_turn
             quarter_turn_recomputed).
Defined.

(** [Rectangle(1, 2, 1.5, 0, 0)] moved to [x_center = 1e16] holds
    [p3 = (1e16, 2)], while [2 * x_center - p1.x] is
    [9999999999999998]. *)
Lemma translated_vertex_is_not_opposite :
  __init__ (mkObject 1 3) (mkObject 2 4) 1.5 0 0 = Ok flat
  /\ reachable far
  /\ p1 far = (10000000000000002, 2)
  /\ p3 far = (1e16, 2)
  /\ (2 * value (x_center far) - fst (p1 far),
      2 * value (y_center far) - snd (p1 far))
     = (9999999999999998, 2)
  /\ p3 far
     <> (2 * value (x_center far) - fst (p1 far),
         2 * value (y_center far) - snd (p1 far)).
Proof.
  split; [exact flat_built |].
  split; [exact far_reachable |].
  split; [vm_compute; reflexivity |].
  split; [vm_compute; reflexivity |].
  split; [vm_compute; reflexivity |].
  told_apart_by (fun v : point float => fst v =? 1e16).
Qed.


Lemma quarter_turn_scenario_witness :
  exists self : Rectangle float,
    __init__ origin origin 1 0 half_pi = Ok self
    /\ p1 self = (1, 0)
    /\ p2 self = (0x1.1a62633145c07p-54, 1)
    /\ p3 self = (-1, 0)
    /\ p4 self = (-0x1.1a62633145c07p-54, -1)
    /\ distance_calculation self (p1 self) (p2 self)
       = Ok 0x1.6a09e667f3bccp+0
    /\ distance_calculation self (p2 self) (p3 self)
       = Ok 0x1.6a09e667f3bcdp+0
    /\ area self = 2.
Proof.
  apply (quarter_turn_scenario table_cos table_sin table_pow_2 origin origin);
    reflexivity.
Defined.

(** [Rectangle(0, 0, 1, 0, math.pi / 2)] holds
    [p2 = (6.123233995736766e-17, 1)] and [p4 = (-6.123233995736766e-17, -1)],
    not [(0, 1)] and [(0, -1)]; its side [p1 p2] is [1.414213562373095],
    one unit in the last place under [math.sqrt(2)]. *)
Lemma quarter_turn_is_not_exact :
  __init__ origin origin 1 0 half_pi = Ok quarter_turn
  /\ p2 quarter_turn = (0x1.1a62633145c07p-54, 1)
  /\ p4 quarter_turn = (-0x1.1a62633145c07p-54, -1)
  /\ p2 quarter_turn <> (0, 1)
  /\ p4 quarter_turn <> (0, -1)
  /\ distance_calculation quarter_turn (p1 quarter_turn) (p2 quarter_turn)
     = Ok 0x1.6a09e667f3bccp+0
  /\ math_sqrt 2 = Ok 0x1.6a09e667f3bcdp+0.
Proof.
  split; [exact quarter_turn_built |].
  split; [reflexivity |].
  split; [reflexivity |].
  split; [told_apart_by (fun v : point float => fst v =? 0) |].
  split; [told_apart_by (fun v : point float => fst v =? 0) |].
  split; vm_compute; reflexivity.
Qed.

(** [Rectangle(1, 2, 1.5, 0, 0)] and [d = 2 ** -53]: [1 + d] and [2 + d]
    round to [1] and [2], the two deltas are zero, and no vertex moves. *)
Lemma small_translation_is_lost :
  __init__ (mkObject 1 3) (mkObject 2 4) 1.5 0 0 = Ok flat
  /\ p3 flat = (-0.5, 2)
  /\ p3 (translate_by flat 0x1p-53 6 7) = (-0.5, 2)
  /\ (fst (p3 flat) + 0x1p-53, snd (p3 flat) + 0x1p-53)
     = (-0x1.ffffffffffffep-2, 2)
  /\ p3 (translate_by flat 0x1p-53 6 7)
     <> (fst (p3 flat) + 0x1p-53, snd (p3 flat) + 0x1p-53).
Proof.
  split; [exact flat_built |].
  split; [reflexivity |].
  split; [vm_compute; reflexivity |].
  split; [vm_compute; reflexivity |].
  told_apart_by (fun v : point float => fst v =? -0.5).
Qed.

Lemma negative_radius_normalized_witness :
  __init__ origin origin (- (1)) 0 half_pi = Ok quarter_turn
  /\ get_radius quarter_turn = abs 1
  /\ get_radius (state_after (change_radius quarter_turn (- (2))))
     = abs (- (2)).
Proof.
  destruct (negative_radius_normalized table_cos table_sin table_pow_2
              origin origin 1 0 half_pi quarter_turn) as (Hn & Hb & _).
  split; [exact (eq_trans Hn quarter_turn_built) |].
  split; [exact (Hb quarter_turn quarter_turn_built) |].
  exact (proj2 (proj2 (negative_radius_normalized table_cos table_sin
                         table_pow_2 origin origin (- (2)) 0 half_pi
                         quarter_turn))).
Defined.

Lemma eq_unordered_angles_witness :
  exists a b c : Rectangle float,
    __init__ origin origin 5 0 half_pi = Ok a
    /\ __init__ origin origin 5 half_pi 0 = Ok b
    /\ __init__ origin origin 5 0 (half_pi + 2 * pi) = Ok c
    /\ __eq__ a b = true
    /\ __eq__ a c = false.
Proof.
  destruct (eq_unordered_angles table_cos table_sin table_pow_2)
    as (_ & Hs & Hf & _).
  eexists. eexists. eexists.
  split; [vm_compute; reflexivity |].
  split; [vm_compute; reflexivity |].
  split; [vm_compute; reflexivity |].
  split.
  - apply (Hs 1%N 1%N 1%N 1%N); vm_compute; reflexivity.
  - apply (Hf 1%N 1%N 1%N 1%N); vm_compute; reflexivity.
Defined.

(** Two instances built on one NaN object as [x_center] are equal, although
    their [x_center] are not [==]. *)
Lemma same_nan_center_is_equal :
  exists a b : Rectangle float,
    __init__ (mkObject nan 8) origin 1 0 0 = Ok a
    /\ __init__ (mkObject nan 8) origin 1 0 0 = Ok b
    /\ __eq__ a b = true
    /\ (value (x_center a) =? value (x_center b)) = false.
Proof.
  eexists. eexists.
  split; [vm_compute; reflexivity |].
  split; [vm_compute; reflexivity |].
  split; vm_compute; reflexivity.
Qed.




(** [Rectangle(0, 0, float('nan'), 0, 0)] is built and is not equal to
    itself. *)
Lemma nan_radius_is_not_equal_to_itself :
  exists a : Rectangle float,
    __init__ origin origin nan 0 0 = Ok a
    /\ __eq__ a a = false.
Proof.
  eexists. split; vm_compute; reflexivity.
Qed.

(** ** The further properties at the samples *)

Lemma radius_never_negative_witness :
  reachable far
  /\ abs (get_radius far) = get_radius far
  /\ (get_radius far <? 0) = false.
Proof.
  split.
  - exact far_reachable.
  - exact (radius_never_negative table_cos table_sin table_pow_2 far
             far_reachable).
Defined.

Lemma last_call_wins_witness :
  target (Change_radius 3) = target (Change_radius 2)
  /\ is_translation (Change_radius 2) = false
  /\ call (Change_radius 2) quarter_turn = Returned doubled
  /\ call (Change_radius 2) (state_after (call (Change_radius 3) quarter_turn))
     = Returned doubled.
Proof.
  split; [reflexivity |]. split; [reflexivity |].
  split; [exact doubled_returned |].
  exact (proj2 (last_call_wins table_cos table_sin table_pow_2 quarter_turn
                  doubled (Change_radius 3) (Change_radius 2) eq_refl
                  eq_refl)
           doubled_returned).
Defined.

Lemma calls_commute_witness :
  target (Change_x_center (mkObject 3 2))
  <> target (Change_y_center (mkObject 4 9))
  /\ state_after
       (run [Change_x_center (mkObject 3 2); Change_y_center (mkObject 4 9)]
          quarter_turn)
     = state_after
         (run [Change_y_center (mkObject 4 9); Change_x_center (mkObject 3 2)]
            quarter_turn).
Proof.
  assert (Ht : target (Change_x_center (mkObject 3 2))
               <> target (Change_y_center (mkObject (4 : float) 9)))
    by discriminate.
  split; [exact Ht |].
  exact (calls_commute table_cos table_sin table_pow_2 quarter_turn _ _
           (Change_x_center (mkObject 3 2)) (Change_y_center (mkObject 4 9))
           Ht eq_refl eq_refl eq_refl).
Defined.

Lemma mutators_rebuild_witness :
  exists self' : Rectangle float,
    run [Change_x_center (mkObject 1 3); Change_y_center (mkObject 2 4);
         Change_radius 3; Change_alpha_angle half_pi; Change_beta_angle 0]
      quarter_turn
    = Returned self'
    /\ __init__ (mkObject 1 3) (mkObject 2 4) 3 half_pi 0 = Ok self'.
Proof.
  eexists. split.
  - vm_compute. reflexivity.
  - apply (mutators_rebuild table_cos table_sin table_pow_2 quarter_turn).
    vm_compute. reflexivity.
Defined.

Lemma set_to_current_value_witness :
  recomputed quarter_turn
  /\ change_radius quarter_turn (get_radius quarter_turn)
     = Returned quarter_turn
  /\ change_alpha_angle quarter_turn (get_alpha_angle quarter_turn)
     = Returned quarter_turn
  /\ change_beta_angle quarter_turn (get_beta_angle quarter_turn)
     = Returned quarter_turn.
Proof.
  split.
  - exact quarter_turn_recomputed.
  - exact (set_to_current_value table_cos table_sin table_pow_2 quarter_turn
             quarter_turn_recomputed).
Defined.

Lemma parameters_determine_state_witness :
  change_radius doubled 1 = Returned (state_after (change_radius doubled 1))
  /\ quarter_turn = state_after (change_radius doubled 1).
Proof.
  assert (H : change_radius doubled 1
              = Returned (state_after (change_radius doubled 1)))
    by (vm_compute; reflexivity).
  split; [exact H |].
  exact (parameters_determine_state table_cos table_sin table_pow_2
           quarter_turn
           (state_after (change_radius doubled 1))
           quarter_turn_recomputed (recomputed_radius _ _ _ H)
           eq_refl eq_refl eq_refl eq_refl).
Defined.


Lemma raise_keeps_assignment_witness :
  exists self' : Rectangle float,
    call (Change_radius 0x1p+600) quarter_turn = Raised OverflowError self'
    /\ area self' = area quarter_turn
    /\ radius self' = abs 0x1p+600.
Proof.
  eexists. split.
  - vm_compute. reflexivity.
  - apply (raise_keeps_assignment table_cos table_sin table_pow_2
             quarter_turn _
             (Change_radius 0x1p+600) OverflowError).
    vm_compute. reflexivity.
Defined.

Lemma eq_swapped_angles_witness :
  exists a b : Rectangle float,
    __init__ origin origin 5 0 half_pi = Ok a
    /\ __init__ origin origin 5 half_pi 0 = Ok b
    /\ __eq__ a b = true.
Proof.
  eexists. eexists.
  split; [vm_compute; reflexivity |].
  split; [vm_compute; reflexivity |].
  apply (eq_swapped_angles table_cos table_sin table_pow_2 origin origin 5 0
           half_pi);
    [vm_compute; reflexivity | vm_compute; reflexivity |].
  repeat split.
Defined.

Lemma distance_calculation_symmetric_witness :
  distance_calculation quarter_turn (p1 quarter_turn) (p2 quarter_turn)
  = distance_calculation quarter_turn (p2 quarter_turn) (p1 quarter_turn)
  /\ distance_calculation quarter_turn (p2 quarter_turn) (p2 quarter_turn)
     = Ok 0.
Proof.
  destruct (distance_calculation_symmetric table_cos table_sin table_pow_2
              quarter_turn (p2 quarter_turn) (p1 quarter_turn))
    as (Hs & _ & Hz).
  split; [symmetry; exact Hs | exact (Hz eq_refl eq_refl)].
Defined.

End Examples.

(** * Exact arithmetic *)

Lemma real_eq_true (a b : R) : real_eq a b = true <-> a = b.
Proof.
  unfold real_eq. destruct (Req_dec_T a b) as [E | N]; split; intros H.
  - exact E.
  - reflexivity.
  - discriminate H.
  - contradiction.
Qed.

Lemma real_number_laws : NumberLaws real_number.
Proof.
  constructor; cbn.
  - exact Rabs_Ropp.
  - exact Rabs_Rabsolu.
  - intros a. unfold real_lt. destruct (Rlt_dec (Rabs a) 0) as [H | H].
    + pose proof (Rabs_pos a). lra.
    + reflexivity.
  - intros a b. apply eq_true_iff_eq. rewrite !real_eq_true.
    split; intros H; symmetry; exact H.
  - intros a b c. rewrite !real_eq_true. congruence.
  - exact real_eq_true.
Qed.

Section Exact.

#[local] Existing Instance real_number.
#[local] Existing Instance real_number_laws.

Local Open Scope R_scope.

















End Exact.
